(** * equgrad: a shallow embedding of [equgrad.py]

    The Python module defines six classes of algebraic objects ([Number],
    [Symbol], [SumType], [ProductType], [QuotientType], [PowType]) with the
    methods [simplify], [factor] and [evaluate].  This file embeds the method
    bodies as Rocq functions over a universe of Python values and proves what
    they do.

    Scope of the embedding.
    - Python is dynamically typed: a method may return [None], a number or an
      object, and a list of operands may hold any of them.  The universe [val]
      therefore holds all of these, and an expression of the data model is a
      well-typed value ([is_expr]).
    - A Python float is an IEEE binary64 number ([PrimFloat.float]); the int
      literals of the source are integers of [Z].
    - An object has an identity.  The only place where the source observes it
      is the dictionary of like terms of [SumType.simplify], whose keys are
      [Symbol] objects hashed and compared by identity; a [Symbol] therefore
      carries its identity [oid].
    - Arithmetic of two numbers is Python's own.  The embedding computes the
      sum and the quotient of two floats (and of ints that are exact as
      floats); where it does not define the resulting number, as for every
      power, the run stops with the outcome [Builtin].
    - The method bodies are embedded as written.  The order of the two import
      statements at the top of the module is outside the embedding. *)

From Stdlib Require Import ZArith String Ascii List Bool Floats Uint63 Lia.
From stdpp Require Import gmap strings list.

Set Warnings "-register-all".

Local Open Scope string_scope.
Local Open Scope list_scope.
Local Open Scope Z_scope.

(** ** Python values *)

Inductive val : Type :=
| VNone                                   (* None *)
| VInt (n : Z)                            (* int *)
| VFloat (x : float)                      (* float *)
| Number (value : val)                    (* Number(value) *)
| Symbol (oid : positive) (name : string) (* Symbol(name), the object oid *)
| SumType (values : list val)             (* SumType(values) *)
| ProductType (values : list val)         (* ProductType(values) *)
| QuotientType (a b : val)                (* QuotientType(a, b) *)
| PowType (a b : val).                    (* PowType(a, b) *)

(** The exceptions the method bodies can raise: the module's own
    [InvalidSymbolName] and the built-in ones of the language. *)
Inductive exn : Type :=
| InvalidSymbolName
| AttributeError
| KeyError
| IndexError
| TypeError
| ZeroDivisionError.

Inductive binop : Type := Add | Truediv | Pow.

(** The outcome of running a piece of the source.
    - [Ret v]: it returns [v].
    - [Raise e]: the exception [e] propagates.
    - [Builtin op x y]: the run reaches Python's arithmetic [x op y] on two
      numbers at a point where the embedding does not define the number that
      results (every power of two numbers, and arithmetic on an int that has no
      exact float); the run is followed no further.
    - [OutOfFuel]: a [while] loop used up the iterations it was given. *)
Inductive outcome (A : Type) : Type :=
| Ret (a : A)
| Raise (e : exn)
| Builtin (op : binop) (x y : val)
| OutOfFuel.

Arguments Ret {A} a.
Arguments Raise {A} e.
Arguments Builtin {A} op x y.
Arguments OutOfFuel {A}.

(** Sequencing: what follows runs only after a return. *)
#[global] Instance outcome_ret : MRet outcome := fun A a => Ret a.
#[global] Instance outcome_bind : MBind outcome := fun A B k m =>
  match m with
  | Ret a => k a
  | Raise e => Raise e
  | Builtin op x y => Builtin op x y
  | OutOfFuel => OutOfFuel
  end.

Definition raises {A : Type} (o : outcome A) : bool :=
  match o with
  | Raise _ => true
  | _ => false
  end.

(** ** Attribute access and indexing *)

(** [v.value]: only a [Number] has the attribute. *)
Definition get_value (v : val) : outcome val :=
  match v with
  | Number value => Ret value
  | _ => Raise AttributeError
  end.

(** [v.values]: only a [SumType] and a [ProductType] have the attribute. *)
Definition get_values (v : val) : outcome (list val) :=
  match v with
  | SumType values | ProductType values => Ret values
  | _ => Raise AttributeError
  end.

(** [l[i]] on a list, for an index that is not negative. *)
Definition getitem (l : list val) (i : nat) : outcome val :=
  match l !! i with
  | Some v => Ret v
  | None => Raise IndexError
  end.

(** [type(value) == SumType] *)
Definition is_SumType (value : val) : bool :=
  match value with
  | SumType _ => true
  | _ => false
  end.

(** ** Arithmetic operators

    [a + b], [a / b] and [a ** b] call the method of the left operand.
    [Number] and [Symbol] define [__add__], [__truediv__] and [__pow__], which
    build a node.  The four composite classes inherit them from
    [AlgebraicObject], where the body is [...]: the call returns [None].  No
    class defines a reflected method, so a number or [None] on the left with
    an object on the right is a [TypeError]. *)

(** The float of an int, where it is exact. *)
Definition float_of_int (n : Z) : option float :=
  if Z.abs n <=? 2 ^ 53 then
    Some (if n <? 0 then PrimFloat.opp (PrimFloat.of_uint63 (Uint63.of_Z (- n)))
          else PrimFloat.of_uint63 (Uint63.of_Z n))
  else None.

Definition to_float (v : val) : option float :=
  match v with
  | VFloat x => Some x
  | VInt n => float_of_int n
  | _ => None
  end.

Definition is_number (v : val) : bool :=
  match v with
  | VInt _ | VFloat _ => true
  | _ => false
  end.

(** Arithmetic of two numbers through their floats. *)
Definition float_op (op : binop) (f : float -> float -> outcome val) (x y : val)
  : outcome val :=
  match to_float x, to_float y with
  | Some fx, Some fy => f fx fy
  | _, _ => Builtin op x y
  end.

Definition number_add (x y : val) : outcome val :=
  match x, y with
  | VInt m, VInt n => Ret (VInt (m + n))
  | _, _ => float_op Add (fun fx fy => Ret (VFloat (PrimFloat.add fx fy))) x y
  end.

Definition number_truediv (x y : val) : outcome val :=
  float_op Truediv
    (fun fx fy =>
       if PrimFloat.eqb fy 0%float then Raise ZeroDivisionError
       else Ret (VFloat (PrimFloat.div fx fy)))
    x y.

Definition number_pow (x y : val) : outcome val := Builtin Pow x y.

Definition py_binop (op : binop) (a b : val) : outcome val :=
  match a with
  | Number _ | Symbol _ _ =>
      Ret (match op with
           | Add => SumType [a; b]
           | Truediv => QuotientType a b
           | Pow => PowType a b
           end)
  | SumType _ | ProductType _ | QuotientType _ _ | PowType _ _ => Ret VNone
  | VNone => Raise TypeError
  | VInt _ | VFloat _ =>
      if is_number b then
        match op with
        | Add => number_add a b
        | Truediv => number_truediv a b
        | Pow => number_pow a b
        end
      else Raise TypeError
  end.

Definition py_add : val -> val -> outcome val := py_binop Add.
Definition py_truediv : val -> val -> outcome val := py_binop Truediv.
Definition py_pow : val -> val -> outcome val := py_binop Pow.

(** ** [evaluate]

    [symbols] is the dict of the caller, from a name to a value. *)

(** The loop of [SumType.evaluate], which [ProductType.evaluate] repeats
    word for word, where [evaluate] is the method called on each operand with
    the dict [symbols]:
      for value in self.values: value += value.evaluate(symbols)
    The loop variable is the variable [value] that holds the running result:
    each iteration first assigns the next operand to it. *)
Definition evaluate_values (evaluate : val -> outcome val)
  : val -> list val -> outcome val :=
  fix loop (value : val) (rest : list val) {struct rest} : outcome val :=
    match rest with
    | [] => Ret value
    | item :: rest' =>
        let value := item in
        r ← evaluate value;
        value ← py_add value r;
        loop value rest'
    end.

Fixpoint evaluate (self : val) (symbols : gmap string val) {struct self}
  : outcome val :=
  match self with
  | Number _ =>
      (* return self *)
      Ret self
  | Symbol _ name =>
      (* return symbols[self.name] *)
      match symbols !! name with
      | Some x => Ret x
      | None => Raise KeyError
      end
  | SumType values =>
      (* value = 0
         for value in self.values: value += value.evaluate(symbols)
         return value *)
      evaluate_values (fun value => evaluate value symbols) (VInt 0) values
  | ProductType values =>
      (* value = 0
         for value in self.values: value += value.evaluate(symbols)
         return value *)
      evaluate_values (fun value => evaluate value symbols) (VInt 0) values
  | QuotientType a b =>
      (* return self.a.evaluate(symbols) / self.b.evaluate(symbols) *)
      x ← evaluate a symbols;
      y ← evaluate b symbols;
      py_truediv x y
  | PowType a b =>
      (* return self.a.evaluate(symbols) ** self.b.evaluate(symbols) *)
      x ← evaluate a symbols;
      y ← evaluate b symbols;
      py_pow x y
  | VNone | VInt _ | VFloat _ =>
      (* no attribute evaluate *)
      Raise AttributeError
  end.

(** ** [factor]

    Each of the six classes overrides [factor] with [return self]. *)

Definition factor (self : val) : outcome val :=
  match self with
  | Number _ => Ret self
  | Symbol _ _ => Ret self
  | SumType _ => Ret self
  | ProductType _ => Ret self
  | QuotientType _ _ => Ret self
  | PowType _ _ => Ret self
  | VNone | VInt _ | VFloat _ => Raise AttributeError
  end.

(** ** [Symbol.__init__]

    A str is a string of Rocq: a sequence of 8-bit characters. *)

(** [string.ascii_letters] *)
Definition ascii_letters : string :=
  "abcdefghijklmnopqrstuvwxyzABCDEFGHIJKLMNOPQRSTUVWXYZ".

(** [sub in s] on two strings: [sub] occurs in [s]. *)
Fixpoint str_in (sub s : string) : bool :=
  String.prefix sub s ||
  match s with
  | EmptyString => false
  | String _ s' => str_in sub s'
  end.

(** [Symbol(name)], where [oid] is the identity of the new object. *)
Definition Symbol_init (oid : positive) (name : string) : outcome val :=
  if negb (String.length name =? 1)%nat || negb (str_in name ascii_letters)
  then Raise InvalidSymbolName
  else Ret (Symbol oid name).

(** ** [simplify] *)

(** The keys of the dict [like_terms]: the class [Number] itself, and [Symbol]
    objects, which are hashed and compared by identity. *)
Inductive dict_key : Type :=
| KNumber
| KObject (oid : positive).

#[global] Instance dict_key_eq_dec : EqDecision dict_key.
Proof. solve_decision. Defined.

#[global] Instance dict_key_countable : Countable dict_key.
Proof.
  refine (inj_countable'
            (fun k => match k with KNumber => None | KObject oid => Some oid end)
            (fun o => match o with None => KNumber | Some oid => KObject oid end) _).
  intros k. destruct k; reflexivity.
Defined.

(** [d[k]] on a dict. *)
Definition dict_getitem (d : gmap dict_key val) (k : dict_key) : outcome val :=
  match d !! k with
  | Some v => Ret v
  | None => Raise KeyError
  end.

(** The [for] loop of the flattening.  [new_combined_values] is the list
    [combined_values] itself, so [+=] appends to the list that is being
    iterated, and the iteration goes on over what was appended: [i] is the
    position of the iterator in the list [l]. *)
Fixpoint extend_pass (fuel : nat) (i : nat) (l : list val) : outcome (list val) :=
  match fuel with
  | O => OutOfFuel
  | S fuel' =>
      match l !! i with
      | None => Ret l
      | Some value =>
          if is_SumType value then
            values ← get_values value;
            extend_pass fuel' (S i) (l ++ values)
          else extend_pass fuel' (S i) l
      end
  end.

(** The [while True] loop of the flattening: a pass, then the test that no
    [SumType] is left. *)
Fixpoint combine_loop (fuel : nat) (combined_values : list val)
  : outcome (list val) :=
  match fuel with
  | O => OutOfFuel
  | S fuel' =>
      combined_values ← extend_pass fuel 0 combined_values;
      let no_sum_types := forallb (fun value => negb (is_SumType value)) combined_values in
      if no_sum_types then Ret combined_values
      else combine_loop fuel' combined_values
  end.

(** One iteration of the [for] loop that groups like terms. *)
Definition like_terms_step (like_terms : gmap dict_key val) (value : val)
  : outcome (gmap dict_key val) :=
  match value with
  | Number _ =>
      (* like_terms[Number] = Number(like_terms[Number].value + value.value) *)
      entry ← dict_getitem like_terms KNumber;
      x ← get_value entry;
      y ← get_value value;
      s ← py_add x y;
      Ret (<[KNumber := Number s]> like_terms)
  | Symbol oid _ =>
      match like_terms !! KObject oid with
      | Some entry =>
          (* like_terms[value] =
               ProductType([like_terms[value].values[0].value + 1, value]) *)
          values ← get_values entry;
          first ← getitem values 0;
          x ← get_value first;
          s ← py_add x (VInt 1);
          Ret (<[KObject oid := ProductType [s; value]]> like_terms)
      | None =>
          (* like_terms[value] = ProductType([1, value]) *)
          Ret (<[KObject oid := ProductType [VInt 1; value]]> like_terms)
      end
  | _ => Ret like_terms
  end.

Fixpoint like_terms_loop (like_terms : gmap dict_key val) (combined_values : list val)
  : outcome (gmap dict_key val) :=
  match combined_values with
  | [] => Ret like_terms
  | value :: rest =>
      like_terms ← like_terms_step like_terms value;
      like_terms_loop like_terms rest
  end.

(** The loop that both [SumType.simplify] and [ProductType.simplify] start
    with, where [simplify] is the method called on each operand:
      simplified_values = []
      for value in self.values: simplified_values.append(value.simplify()) *)
Definition simplify_values (simplify : val -> outcome val)
  : list val -> outcome (list val) :=
  fix each (rest : list val) {struct rest} : outcome (list val) :=
    match rest with
    | [] => Ret []
    | value :: rest' =>
        v ← simplify value;
        vs ← each rest';
        Ret (v :: vs)
    end.

(** [simplify].  [Number] and [Symbol] return [self].  The body of
    [SumType.simplify] ends after the loop that groups like terms and the body
    of [ProductType.simplify] after the operands are simplified, with no
    [return]; the bodies of [QuotientType.simplify] and [PowType.simplify] are
    a docstring: all four return [None]. *)
Fixpoint simplify (fuel : nat) (self : val) {struct self} : outcome val :=
  match self with
  | Number _ => Ret self
  | Symbol _ _ => Ret self
  | SumType values =>
      simplified_values ← simplify_values (simplify fuel) values;
      combined_values ← combine_loop fuel simplified_values;
      _ ← like_terms_loop {[KNumber := Number (VInt 0)]} combined_values;
      Ret VNone
  | ProductType values =>
      _ ← simplify_values (simplify fuel) values;
      Ret VNone
  | QuotientType _ _ => Ret VNone
  | PowType _ _ => Ret VNone
  | VNone | VInt _ | VFloat _ => Raise AttributeError
  end.

(** ** Expressions of the data model *)

(** [isinstance(v, AlgebraicObject)] for the six classes. *)
Definition is_object (v : val) : bool :=
  match v with
  | Number _ | Symbol _ _ | SumType _ | ProductType _
  | QuotientType _ _ | PowType _ _ => true
  | VNone | VInt _ | VFloat _ => false
  end.

(** A well-typed expression: a [Number] holds a float, a [Symbol] is one that
    its constructor accepts, and every operand is an expression. *)
Fixpoint is_expr (e : val) : bool :=
  match e with
  | Number (VFloat _) => true
  | Number _ => false
  | Symbol oid name => negb (raises (Symbol_init oid name))
  | SumType values => forallb is_expr values
  | ProductType values => forallb is_expr values
  | QuotientType a b => is_expr a && is_expr b
  | PowType a b => is_expr a && is_expr b
  | VNone | VInt _ | VFloat _ => false
  end.

(** The number of nodes of a value. *)
Fixpoint val_size (v : val) : nat :=
  match v with
  | VNone | VInt _ | VFloat _ | Symbol _ _ => 1
  | Number value => S (val_size value)
  | SumType values => S (list_sum (map val_size values))
  | ProductType values => S (list_sum (map val_size values))
  | QuotientType a b => S (val_size a + val_size b)
  | PowType a b => S (val_size a + val_size b)
  end.

(** What the constructor of [Symbol] is specified to accept: exactly one
    letter of a-z or A-Z. *)
Definition is_ascii_letter (c : ascii) : Prop :=
  (97 <= nat_of_ascii c <= 122 \/ 65 <= nat_of_ascii c <= 90)%nat.

Definition one_ascii_letter (name : string) : Prop :=
  exists c : ascii, name = String c EmptyString /\ is_ascii_letter c.

(** The same test on a character, as a boolean. *)
Definition is_ascii_letterb (c : ascii) : bool :=
  ((97 <=? nat_of_ascii c)%nat && (nat_of_ascii c <=? 122)%nat) ||
  ((65 <=? nat_of_ascii c)%nat && (nat_of_ascii c <=? 90)%nat).

(** ** Predicates of the proofs *)

(** A list that holds no [SumType]. *)
Definition no_SumType (l : list val) : Prop :=
  Forall (fun value => is_SumType value = false) l.

(** The values [simplify] returns on an expression: a leaf or [None]. *)
Definition simple_result (r : val) : bool :=
  match r with
  | Number (VFloat _) | Symbol _ _ | VNone => true
  | _ => false
  end.

(** The outcomes of [simplify] on an expression. *)
Definition simple_outcome (o : outcome val) : Prop :=
  o = Raise AttributeError \/ exists r, o = Ret r /\ simple_result r = true.

(** The invariant of the dict of like terms: the entry of [Number] is a
    [Number] of the int [0] or of a float, and the entry of a [Symbol] is the
    [ProductType([1, value])] it was created with. *)
Definition like_terms_ok (like_terms : gmap dict_key val) : Prop :=
  (exists n, like_terms !! KNumber = Some (Number n) /\
             (n = VInt 0 \/ exists x, n = VFloat x)) /\
  (forall oid entry, like_terms !! KObject oid = Some entry ->
                     exists value, entry = ProductType [VInt 1; value]).

(** ** The operators that build nodes *)

(** [-v].  [Number.__neg__] is [Number(-self.value)].  [Symbol.__neg__] is
    [ProductType(Number(-1), self.value)]: the second argument reads the
    attribute [value], which a [Symbol] does not have (and the constructor
    takes one argument).  The four composite classes inherit
    [AlgebraicObject.__neg__], whose body is [...].  On an int and on a float
    it is the negation of the number. *)
Fixpoint py_neg (v : val) : outcome val :=
  match v with
  | VInt n => Ret (VInt (- n))
  | VFloat x => Ret (VFloat (PrimFloat.opp x))
  | VNone => Raise TypeError
  | Number value =>
      x ← py_neg value;
      Ret (Number x)
  | Symbol _ _ =>
      _ ← Ret (Number (VInt (-1)));
      _ ← get_value v;
      Raise TypeError
  | SumType _ | ProductType _ | QuotientType _ _ | PowType _ _ => Ret VNone
  end.

Inductive operator : Type := OAdd | OSub | OMul | OTruediv | OPow.

(** [self.__add__(other)], [self.__sub__(other)], [self.__mul__(other)],
    [self.__truediv__(other)] and [self.__pow__(other)] as [Number] defines
    them; [Symbol] defines the five with the same bodies. *)
Definition leaf_method (op : operator) (self other : val) : outcome val :=
  match op with
  | OAdd => Ret (SumType [self; other])
  | OSub =>
      negated ← py_neg other;
      Ret (SumType [self; negated])
  | OMul => Ret (ProductType [self; other])
  | OTruediv => Ret (QuotientType self other)
  | OPow => Ret (PowType self other)
  end.

(** The same five methods as [AlgebraicObject] defines them, with the body
    [...]; [SumType], [ProductType], [QuotientType] and [PowType] inherit
    them. *)
Definition AlgebraicObject_method (op : operator) (self other : val)
  : outcome val :=
  Ret VNone.

(** [type(v)] is [Number] or [Symbol]. *)
Definition is_leaf (v : val) : bool :=
  match v with
  | Number _ | Symbol _ _ => true
  | _ => false
  end.

(** [type(v)] is one of the four composite classes. *)
Definition is_composite (v : val) : bool :=
  match v with
  | SumType _ | ProductType _ | QuotientType _ _ | PowType _ _ => true
  | _ => false
  end.

(** ** Names, identities and sizes *)

(** The names of the [Symbol]s that [evaluate] reaches in a value. *)
Fixpoint names (e : val) : list string :=
  match e with
  | Symbol _ name => [name]
  | SumType values => flat_map names values
  | ProductType values => flat_map names values
  | QuotientType a b => names a ++ names b
  | PowType a b => names a ++ names b
  | VNone | VInt _ | VFloat _ | Number _ => []
  end.

(** The identities of the [Symbol]s of a list, in order. *)
Definition symbol_oids (values : list val) : list positive :=
  omap (fun value => match value with
                     | Symbol oid _ => Some oid
                     | _ => None
                     end) values.

(** A [Symbol] object occurs twice among the operands of a [SumType] that
    [simplify] reaches: [simplify] visits the operands of a [SumType] and of a
    [ProductType], and not those of a [QuotientType] or a [PowType]. *)
Fixpoint has_repeated_symbol (e : val) : bool :=
  match e with
  | SumType values =>
      existsb has_repeated_symbol values ||
      negb (bool_decide (NoDup (symbol_oids values)))
  | ProductType values => existsb has_repeated_symbol values
  | _ => false
  end.

(** The number of values the flattening pass visits from one value. *)
Fixpoint sum_weight (v : val) : nat :=
  match v with
  | SumType values => S (list_sum (map sum_weight values))
  | _ => 1
  end.

(** The operands of the [SumType]s of a list, in the order of the list. *)
Definition SumType_operands (l : list val) : list val :=
  flat_map (fun value => match value with
                         | SumType values => values
                         | _ => []
                         end) l.

(** The outcomes of [evaluate] on an expression: a return, one of three
    exceptions, or arithmetic of two numbers. *)
Definition evaluate_outcome (o : outcome val) : bool :=
  match o with
  | Ret _ | Builtin _ _ _ => true
  | Raise KeyError | Raise TypeError | Raise ZeroDivisionError => true
  | Raise _ | OutOfFuel => false
  end.

(** The entries the loop needs free: the identities are all different and
    none is a key of the dict yet. *)
Definition all_fresh (like_terms : gmap dict_key val) (oids : list positive)
  : Prop :=
  NoDup oids /\ Forall (fun oid => like_terms !! KObject oid = None) oids.

(** What [simplify] returns on an expression when it returns: the expression
    itself when it is a leaf, and [None] otherwise. *)
Definition simplified (e : val) : val :=
  if is_leaf e then e else VNone.

(** The outcome of [simplify] on an expression. *)
Definition simplify_result (e : val) : outcome val :=
  if has_repeated_symbol e then Raise AttributeError else Ret (simplified e).

(** * Proofs *)

(** ** Induction on values, through the lists of operands *)

Section val_induction.
Variable P : val -> Prop.
Hypothesis HNone : P VNone.
Hypothesis HInt : forall n, P (VInt n).
Hypothesis HFloat : forall x, P (VFloat x).
Hypothesis HNumber : forall value, P value -> P (Number value).
Hypothesis HSymbol : forall oid name, P (Symbol oid name).
Hypothesis HSum : forall values, Forall P values -> P (SumType values).
Hypothesis HProduct : forall values, Forall P values -> P (ProductType values).
Hypothesis HQuotient : forall a b, P a -> P b -> P (QuotientType a b).
Hypothesis HPow : forall a b, P a -> P b -> P (PowType a b).

Fixpoint val_nested_ind (v : val) : P v :=
  let all :=
    fix all (l : list val) : Forall P l :=
      match l with
      | [] => @List.Forall_nil val P
      | x :: l' => @List.Forall_cons val P x l' (val_nested_ind x) (all l')
      end in
  match v with
  | VNone => HNone
  | VInt n => HInt n
  | VFloat x => HFloat x
  | Number value => HNumber value (val_nested_ind value)
  | Symbol oid name => HSymbol oid name
  | SumType values => HSum values (all values)
  | ProductType values => HProduct values (all values)
  | QuotientType a b => HQuotient a b (val_nested_ind a) (val_nested_ind b)
  | PowType a b => HPow a b (val_nested_ind a) (val_nested_ind b)
  end.
End val_induction.

(** ** Sequencing *)

Lemma bind_Ret {A B : Type} (m : outcome A) (k : A -> outcome B) (b : B) :
  (m ≫= k) = Ret b -> exists a, m = Ret a /\ k a = Ret b.
Proof.
  destruct m as [a| | |]; simpl; try discriminate.
  intros H. exists a. split; [reflexivity | exact H].
Qed.

(** ** The flattening loop *)

Lemma no_SumType_forallb (l : list val) :
  no_SumType l -> forallb (fun value => negb (is_SumType value)) l = true.
Proof.
  induction 1 as [|value l Hv _ IH]; simpl; [reflexivity|].
  rewrite Hv, IH. reflexivity.
Qed.

(** Over a list that holds no [SumType] the [for] loop appends nothing. *)
Lemma extend_pass_no_SumType (l : list val) :
  no_SumType l ->
  forall (fuel i : nat), (length l - i < fuel)%nat -> extend_pass fuel i l = Ret l.
Proof.
  intros Hl fuel. induction fuel as [|fuel IH]; intros i Hlen; simpl; [lia|].
  destruct (l !! i) as [value|] eqn:Hi; [|reflexivity].
  assert (Hv : is_SumType value = false).
  { unfold no_SumType in Hl. rewrite Forall_lookup in Hl. exact (Hl i value Hi). }
  apply lookup_lt_Some in Hi.
  rewrite Hv. apply IH. lia.
Qed.

(** So the [while True] loop leaves after its first pass. *)
Lemma combine_loop_no_SumType (l : list val) (fuel : nat) :
  no_SumType l -> (length l < fuel)%nat -> combine_loop fuel l = Ret l.
Proof.
  intros Hl Hlen. destruct fuel as [|fuel]; [lia|].
  cbn [combine_loop].
  rewrite (extend_pass_no_SumType l Hl (S fuel) 0) by lia.
  cbn [mbind outcome_bind].
  rewrite (no_SumType_forallb l Hl). reflexivity.
Qed.

(** A pass only appends to the list: what was in it stays in it. *)
Lemma extend_pass_keeps (fuel i : nat) (l l' : list val) :
  extend_pass fuel i l = Ret l' -> exists added, l' = l ++ added.
Proof.
  revert i l. induction fuel as [|fuel IH]; intros i l; simpl; [discriminate|].
  destruct (l !! i) as [value|] eqn:Hi.
  - destruct (is_SumType value) eqn:Hv.
    + destruct value; try discriminate. cbn [get_values mbind outcome_bind].
      intros H. apply IH in H as [added ->].
      exists (values ++ added). rewrite <- app_assoc. reflexivity.
    + apply IH.
  - intros [= <-]. exists []. rewrite app_nil_r. reflexivity.
Qed.

(** ** What [simplify] returns *)

Lemma simple_result_no_SumType (l : list val) :
  Forall (fun r => simple_result r = true) l -> no_SumType l.
Proof.
  unfold no_SumType. intros Hl. eapply Forall_impl; [exact Hl|].
  intros r Hr. destruct r; try reflexivity. discriminate.
Qed.

Lemma val_size_pos (v : val) : (1 <= val_size v)%nat.
Proof. destruct v; simpl; lia. Qed.

Lemma length_le_list_sum_val_size (l : list val) :
  (length l <= list_sum (map val_size l))%nat.
Proof.
  induction l as [|v l IH]; simpl; [lia|].
  pose proof (val_size_pos v). lia.
Qed.

Lemma val_size_elem_of (v : val) (l : list val) :
  v ∈ l -> (val_size v <= list_sum (map val_size l))%nat.
Proof.
  induction 1 as [v l|v w l _ IH]; simpl; lia.
Qed.

Lemma simplify_values_cases (f : val -> outcome val) (values : list val) :
  Forall (fun value => simple_outcome (f value)) values ->
  simplify_values f values = Raise AttributeError \/
  exists l, simplify_values f values = Ret l /\
            Forall (fun r => simple_result r = true) l /\
            length l = length values.
Proof.
  induction 1 as [|value values Hv _ IH]; simpl.
  - right. exists []. repeat split. constructor.
  - destruct Hv as [Hv|[r [Hv Hr]]]; rewrite Hv; cbn [mbind outcome_bind].
    + left. reflexivity.
    + destruct IH as [IH|[l [IH [Hl Hlen]]]]; rewrite IH; cbn [mbind outcome_bind].
      * left. reflexivity.
      * right. exists (r :: l). repeat split.
        -- constructor; assumption.
        -- simpl. rewrite Hlen. reflexivity.
Qed.

Lemma like_terms_init_ok : like_terms_ok {[KNumber := Number (VInt 0)]}.
Proof.
  split.
  - exists (VInt 0). split; [apply lookup_singleton_eq | left; reflexivity].
  - intros oid entry H. rewrite lookup_singleton_ne in H by discriminate.
    discriminate.
Qed.

Lemma like_terms_step_ok (like_terms : gmap dict_key val) (value : val) :
  like_terms_ok like_terms -> simple_result value = true ->
  like_terms_step like_terms value = Raise AttributeError \/
  exists like_terms', like_terms_step like_terms value = Ret like_terms' /\
                      like_terms_ok like_terms'.
Proof.
  intros [[n [Hn Hnum]] Hsym] Hvalue.
  destruct value as [| | |payload|oid name| | | |]; try discriminate.
  - right. exists like_terms. split; [reflexivity|]. split; [eauto|exact Hsym].
  - destruct payload as [| |y| | | | | |]; try discriminate.
    right. unfold like_terms_step, dict_getitem. rewrite Hn.
    cbn [mbind outcome_bind get_value].
    assert (Hadd : exists z, py_add n (VFloat y) = Ret (VFloat z)).
    { destruct Hnum as [->|[x ->]]; eexists; reflexivity. }
    destruct Hadd as [z ->]. cbn [mbind outcome_bind].
    eexists. split; [reflexivity|]. split.
    + exists (VFloat z). split; [apply lookup_insert_eq | right; eauto].
    + intros oid entry H. rewrite lookup_insert_ne in H by discriminate. eauto.
  - unfold like_terms_step.
    destruct (like_terms !! KObject oid) as [entry|] eqn:Hentry.
    + left. destruct (Hsym oid entry Hentry) as [v ->]. reflexivity.
    + right. eexists. split; [reflexivity|]. split.
      * exists n. split; [|exact Hnum].
        rewrite lookup_insert_ne by discriminate. exact Hn.
      * intros oid' entry H.
        destruct (decide (oid = oid')) as [->|Hne].
        -- rewrite lookup_insert_eq in H. injection H as <-. eauto.
        -- rewrite lookup_insert_ne in H by congruence. eauto.
Qed.

Lemma like_terms_loop_ok (combined_values : list val) :
  Forall (fun r => simple_result r = true) combined_values ->
  forall like_terms, like_terms_ok like_terms ->
  like_terms_loop like_terms combined_values = Raise AttributeError \/
  exists like_terms', like_terms_loop like_terms combined_values = Ret like_terms'.
Proof.
  induction 1 as [|value rest Hv _ IH]; intros like_terms Hok; simpl.
  - right. eauto.
  - destruct (like_terms_step_ok like_terms value Hok Hv) as [H|[lt' [H Hok']]];
      rewrite H; cbn [mbind outcome_bind].
    + left. reflexivity.
    + apply IH. exact Hok'.
Qed.

(** On an expression and with fuel for the loop, [simplify] returns a leaf or
    [None], or raises [AttributeError]. *)
Lemma simplify_is_expr (e : val) :
  is_expr e = true ->
  forall fuel, (val_size e <= fuel)%nat -> simple_outcome (simplify fuel e).
Proof.
  induction e as [| | |value _|oid name|values IH|values IH|a b _ _|a b _ _]
    using val_nested_ind; intros He fuel Hfuel; try discriminate.
  - destruct value; try discriminate. right. eexists. split; reflexivity.
  - right. eexists. split; reflexivity.
  - cbn [is_expr] in He. cbn [val_size] in Hfuel.
    assert (Hall : Forall (fun value => simple_outcome (simplify fuel value)) values).
    { rewrite Forall_forall in IH. apply Forall_forall. intros value Hin.
      apply IH; [exact Hin| |].
      - rewrite forallb_forall in He. apply He. apply list_elem_of_In. exact Hin.
      - pose proof (val_size_elem_of value values Hin). lia. }
    cbn [simplify].
    destruct (simplify_values_cases _ _ Hall) as [H|[l [H [Hl Hlen]]]];
      rewrite H; cbn [mbind outcome_bind]; [left; reflexivity|].
    rewrite combine_loop_no_SumType.
    + cbn [mbind outcome_bind].
      destruct (like_terms_loop_ok l Hl _ like_terms_init_ok) as [H'|[lt' H']];
        rewrite H'; cbn [mbind outcome_bind].
      * left. reflexivity.
      * right. exists VNone. split; reflexivity.
    + apply simple_result_no_SumType. exact Hl.
    + pose proof (length_le_list_sum_val_size values). lia.
  - cbn [is_expr] in He. cbn [val_size] in Hfuel.
    assert (Hall : Forall (fun value => simple_outcome (simplify fuel value)) values).
    { rewrite Forall_forall in IH. apply Forall_forall. intros value Hin.
      apply IH; [exact Hin| |].
      - rewrite forallb_forall in He. apply He. apply list_elem_of_In. exact Hin.
      - pose proof (val_size_elem_of value values Hin). lia. }
    cbn [simplify].
    destruct (simplify_values_cases _ _ Hall) as [H|[l [H _]]];
      rewrite H; cbn [mbind outcome_bind]; [left; reflexivity|].
    right. exists VNone. split; reflexivity.
  - right. exists VNone. split; reflexivity.
  - right. exists VNone. split; reflexivity.
Qed.

(** ** The flattening loop of [SumType.simplify] *)




(** ** [simplify]: what it returns on a composite node *)

(** C1.  On the sum [SumType([Number(1.0), Number(2.0)])], [simplify] returns
    [None], which is no expression, and [simplify] of that result raises
    [AttributeError]: [simplify(simplify(e))] is not [simplify(e)]. *)
Theorem simplify_SumType_twice_raises (fuel : nat) :
  simplify (3 + fuel) (SumType [Number (VFloat 1); Number (VFloat 2)]) = Ret VNone /\
  (r ← simplify (3 + fuel) (SumType [Number (VFloat 1); Number (VFloat 2)]);
   simplify (3 + fuel) r) = Raise AttributeError.
Proof.
  assert (H : simplify (3 + fuel) (SumType [Number (VFloat 1); Number (VFloat 2)])
              = Ret VNone) by reflexivity.
  split; [exact H|]. rewrite H. reflexivity.
Qed.

(** C2.  On [e = SumType([Number(1.0), Number(2.0)])] with no bindings,
    [evaluate(factor(e))] is [evaluate(e)], but [evaluate(simplify(e))] raises
    [AttributeError], since [simplify(e)] is [None]; [evaluate(e)] itself
    returns the node [SumType([Number(2.0), Number(2.0)])]. *)
Theorem evaluate_simplify_SumType_raises (fuel : nat) :
  evaluate (SumType [Number (VFloat 1); Number (VFloat 2)]) ∅
  = Ret (SumType [Number (VFloat 2); Number (VFloat 2)]) /\
  (r ← factor (SumType [Number (VFloat 1); Number (VFloat 2)]); evaluate r ∅)
  = evaluate (SumType [Number (VFloat 1); Number (VFloat 2)]) ∅ /\
  (r ← simplify (3 + fuel) (SumType [Number (VFloat 1); Number (VFloat 2)]);
   evaluate r ∅) = Raise AttributeError.
Proof.
  assert (H : simplify (3 + fuel) (SumType [Number (VFloat 1); Number (VFloat 2)])
              = Ret VNone) by reflexivity.
  split; [reflexivity|]. split; [reflexivity|]. rewrite H. reflexivity.
Qed.

(** ** [evaluate] *)

(** C4.  [evaluate] of [Number(c)] returns the object [Number(c)] itself, and
    not the float [c]. *)
Theorem Number_evaluate_returns_self (c : float) (symbols : gmap string val) :
  evaluate (Number (VFloat c)) symbols = Ret (Number (VFloat c)) /\
  evaluate (Number (VFloat c)) symbols <> Ret (VFloat c).
Proof. split; [reflexivity | discriminate]. Qed.

(** C5.  [evaluate] of a [ProductType] with no factor returns the int [0],
    and of [ProductType([Number(2.0), Number(3.0)])] it returns the node
    [SumType([Number(3.0), Number(3.0)])]: neither is the product. *)
Theorem ProductType_evaluate_not_product (symbols : gmap string val) :
  evaluate (ProductType []) symbols = Ret (VInt 0) /\
  evaluate (ProductType [Number (VFloat 2); Number (VFloat 3)]) symbols
  = Ret (SumType [Number (VFloat 3); Number (VFloat 3)]).
Proof. split; reflexivity. Qed.

(** C6.  [evaluate] of a [SumType] with no term returns the int [0], but of
    [SumType([Number(1.0), Number(2.0)])] it returns the node
    [SumType([Number(2.0), Number(2.0)])], built from the last term alone,
    and not the float [3.0]. *)
Theorem SumType_evaluate_not_sum (symbols : gmap string val) :
  evaluate (SumType []) symbols = Ret (VInt 0) /\
  evaluate (SumType [Number (VFloat 1); Number (VFloat 2)]) symbols
  = Ret (SumType [Number (VFloat 2); Number (VFloat 2)]).
Proof. split; reflexivity. Qed.

(** C7.  [evaluate] of a [QuotientType] of two [Number]s raises nothing,
    whatever the two numbers: it returns the node [QuotientType] of the two
    [Number]s.  So [evaluate] of [QuotientType(Number(1.0), Number(0.0))]
    returns [QuotientType(Number(1.0), Number(0.0))]. *)
Theorem QuotientType_evaluate_constants (symbols : gmap string val) :
  (forall x y : val,
     evaluate (QuotientType (Number x) (Number y)) symbols
     = Ret (QuotientType (Number x) (Number y))) /\
  evaluate (QuotientType (Number (VFloat 1)) (Number (VFloat 0))) symbols
  = Ret (QuotientType (Number (VFloat 1)) (Number (VFloat 0))).
Proof. split; [intros x y|]; reflexivity. Qed.

(** C8.  [evaluate] of a [PowType] of two [Number]s raises nothing, whatever
    the two numbers: it returns the node [PowType] of the two [Number]s.  So
    [evaluate] of [PowType(Number(-1.0), Number(0.5))] returns
    [PowType(Number(-1.0), Number(0.5))]. *)
Theorem PowType_evaluate_constants (symbols : gmap string val) :
  (forall x y : val,
     evaluate (PowType (Number x) (Number y)) symbols
     = Ret (PowType (Number x) (Number y))) /\
  evaluate (PowType (Number (VFloat (-1))) (Number (VFloat 0.5))) symbols
  = Ret (PowType (Number (VFloat (-1))) (Number (VFloat 0.5))).
Proof. split; [intros x y|]; reflexivity. Qed.

(** ** [factor] *)

(** C10.  For an object [e] of any of the six classes, [factor(e)] returns
    [e] itself: nothing is extracted from a [SumType] and no operand is
    visited. *)
Theorem factor_returns_self (e : val) :
  is_object e = true -> factor e = Ret e.
Proof. destruct e; (reflexivity || discriminate). Qed.

(** The theorem at [2x + 4y]. *)
Lemma factor_returns_self_witness :
  factor (SumType [ProductType [Number (VFloat 2); Symbol 1 "x"];
                   ProductType [Number (VFloat 4); Symbol 2 "y"]])
  = Ret (SumType [ProductType [Number (VFloat 2); Symbol 1 "x"];
                  ProductType [Number (VFloat 4); Symbol 2 "y"]]).
Proof.
  apply (factor_returns_self
           (SumType [ProductType [Number (VFloat 2); Symbol 1 "x"];
                     ProductType [Number (VFloat 4); Symbol 2 "y"]])).
  reflexivity.
Defined.

(** ** [Symbol.__init__] *)

Lemma is_ascii_letterb_spec (c : ascii) :
  is_ascii_letterb c = true <-> is_ascii_letter c.
Proof.
  unfold is_ascii_letterb, is_ascii_letter.
  rewrite orb_true_iff, !andb_true_iff, !Nat.leb_le. reflexivity.
Qed.

(** A string of one character occurs in [ascii_letters] exactly when the
    character is a letter. *)
Lemma str_in_ascii_letters (c : ascii) :
  str_in (String c EmptyString) ascii_letters = is_ascii_letterb c.
Proof.
  destruct c as [[] [] [] [] [] [] [] []]; vm_compute; reflexivity.
Qed.

(** C9.  [Symbol(name)] raises [InvalidSymbolName] if and only if [name] is
    not exactly one letter of a-z or A-Z, and with one such letter it returns
    the new [Symbol]; in particular [Symbol("xy")] and [Symbol("1")] raise
    [InvalidSymbolName]. *)
Theorem Symbol_init_InvalidSymbolName (oid : positive) (name : string) :
  (Symbol_init oid name = Raise InvalidSymbolName <-> ~ one_ascii_letter name) /\
  (one_ascii_letter name -> Symbol_init oid name = Ret (Symbol oid name)) /\
  Symbol_init oid "xy" = Raise InvalidSymbolName /\
  Symbol_init oid "1" = Raise InvalidSymbolName.
Proof.
  assert (Hone : forall c, Symbol_init oid (String c EmptyString)
                           = if is_ascii_letterb c
                             then Ret (Symbol oid (String c EmptyString))
                             else Raise InvalidSymbolName).
  { intros c. unfold Symbol_init. cbn [String.length Nat.eqb negb orb].
    rewrite str_in_ascii_letters. destruct (is_ascii_letterb c); reflexivity. }
  assert (Hletter : one_ascii_letter name ->
                    Symbol_init oid name = Ret (Symbol oid name)).
  { intros [c [-> Hc]]. rewrite Hone.
    apply is_ascii_letterb_spec in Hc. rewrite Hc. reflexivity. }
  split; [|split; [exact Hletter | split; reflexivity]].
  split.
  - intros Hraise Hname. rewrite (Hletter Hname) in Hraise. discriminate.
  - intros Hname. destruct name as [|c [|d rest]]; try reflexivity.
    rewrite Hone. destruct (is_ascii_letterb c) eqn:Hc; [|reflexivity].
    exfalso. apply Hname. exists c. split; [reflexivity|].
    apply is_ascii_letterb_spec. exact Hc.
Qed.

(** ** Further properties of the code *)

(** X1.  The flattening loop on its own: when the list it is given holds a
    [SumType], no amount of fuel lets the [while True] loop return, since a
    pass appends the operands of the [SumType] and keeps the [SumType], and
    the test that ends the loop fails after every pass. *)
Theorem combine_loop_never_returns (fuel : nat) (l : list val) :
  Exists (fun value => is_SumType value = true) l ->
  forall l', combine_loop fuel l <> Ret l'.
Proof.
  revert l. induction fuel as [|fuel IH]; intros l Hl l'; [discriminate|].
  cbn [combine_loop].
  destruct (extend_pass (S fuel) 0 l) as [l1| | |] eqn:Hpass;
    cbn [mbind outcome_bind]; try discriminate.
  destruct (extend_pass_keeps _ _ _ _ Hpass) as [added ->].
  assert (Hex : Exists (fun value => is_SumType value = true) (l ++ added)).
  { apply Exists_app. left. exact Hl. }
  destruct (forallb (fun value => negb (is_SumType value)) (l ++ added)) eqn:Hall.
  - exfalso. rewrite forallb_forall in Hall. apply Exists_exists in Hex.
    destruct Hex as [value [Hin Hv]]. apply list_elem_of_In in Hin.
    specialize (Hall value Hin). rewrite Hv in Hall. discriminate.
  - apply IH. exact Hex.
Qed.

(** The theorem at the list of one [SumType]. *)
Lemma combine_loop_never_returns_witness :
  combine_loop 9 [SumType [Number (VFloat 1)]]
  <> Ret [SumType [Number (VFloat 1)]; Number (VFloat 1)].
Proof.
  apply (combine_loop_never_returns 9 [SumType [Number (VFloat 1)]]).
  apply Exists_cons_hd. reflexivity.
Defined.

(** X2.  [evaluate] of a [QuotientType] whose operands evaluate to floats: a
    denominator equal to zero raises [ZeroDivisionError], and any other gives
    the quotient of the two floats. *)
Theorem QuotientType_evaluate_floats
  (a b : val) (symbols : gmap string val) (x y : float) :
  evaluate a symbols = Ret (VFloat x) ->
  evaluate b symbols = Ret (VFloat y) ->
  evaluate (QuotientType a b) symbols
  = if PrimFloat.eqb y 0%float then Raise ZeroDivisionError
    else Ret (VFloat (PrimFloat.div x y)).
Proof.
  intros Ha Hb. cbn [evaluate]. rewrite Ha. cbn [mbind outcome_bind].
  rewrite Hb. reflexivity.
Qed.

(** The theorem at [x / y] with [x] bound to [1.0] and [y] to [0.0]. *)
Lemma QuotientType_evaluate_floats_witness :
  evaluate (QuotientType (Symbol 1 "x") (Symbol 2 "y"))
    (<["x" := VFloat 1]> (<["y" := VFloat 0]> ∅))
  = if PrimFloat.eqb 0 0%float then Raise ZeroDivisionError
    else Ret (VFloat (PrimFloat.div 1 0)).
Proof.
  apply (QuotientType_evaluate_floats (Symbol 1 "x") (Symbol 2 "y")
           (<["x" := VFloat 1]> (<["y" := VFloat 0]> ∅)) 1 0).
  - reflexivity.
  - reflexivity.
Defined.

(** X3.  [evaluate] of a [SumType] or of a [ProductType] whose operands are
    one or more [Number]s returns the node [SumType([last, last])] of the last
    operand, whatever the operands before it. *)
Theorem evaluate_constants_last
  (cs : list float) (c : float) (symbols : gmap string val) :
  evaluate (SumType (map (fun x => Number (VFloat x)) cs ++ [Number (VFloat c)]))
    symbols
  = Ret (SumType [Number (VFloat c); Number (VFloat c)]) /\
  evaluate (ProductType (map (fun x => Number (VFloat x)) cs ++ [Number (VFloat c)]))
    symbols
  = Ret (SumType [Number (VFloat c); Number (VFloat c)]).
Proof.
  assert (H : forall value,
             evaluate_values (fun value => evaluate value symbols) value
               (map (fun x => Number (VFloat x)) cs ++ [Number (VFloat c)])
             = Ret (SumType [Number (VFloat c); Number (VFloat c)])).
  { induction cs as [|x cs IH]; intros value; [reflexivity|]. apply IH. }
  split; apply H.
Qed.

(** X4.  On a composite expression, [simplify] returns [None] or raises
    [AttributeError], so that [simplify] of its result always raises
    [AttributeError]. *)
Theorem simplify_composite_twice_raises (e : val) (fuel : nat) :
  is_expr e = true -> (val_size e <= fuel)%nat ->
  (forall value, e <> Number value) -> (forall oid name, e <> Symbol oid name) ->
  (simplify fuel e = Ret VNone \/ simplify fuel e = Raise AttributeError) /\
  (r ← simplify fuel e; simplify fuel r) = Raise AttributeError.
Proof.
  intros He Hfuel HNumber HSymbol.
  assert (H : simplify fuel e = Ret VNone \/ simplify fuel e = Raise AttributeError).
  { destruct (simplify_is_expr e He fuel Hfuel) as [H|[r [H Hr]]]; [right; exact H|].
    left. rewrite H. f_equal.
    destruct e as [| | |value|oid name|values|values|a b|a b]; try discriminate.
    - exfalso. exact (HNumber value eq_refl).
    - exfalso. exact (HSymbol oid name eq_refl).
    - cbn [simplify] in H.
      apply bind_Ret in H as [l1 [_ H]]. apply bind_Ret in H as [l2 [_ H]].
      apply bind_Ret in H as [lt [_ H]]. injection H as <-. reflexivity.
    - cbn [simplify] in H. apply bind_Ret in H as [l1 [_ H]].
      injection H as <-. reflexivity.
    - injection H as <-. reflexivity.
    - injection H as <-. reflexivity. }
  split; [exact H|]. destruct H as [-> | ->]; reflexivity.
Qed.

(** The theorem at [1.0 / x]. *)
Lemma simplify_composite_twice_raises_witness :
  (simplify 4 (QuotientType (Number (VFloat 1)) (Symbol 1 "x")) = Ret VNone \/
   simplify 4 (QuotientType (Number (VFloat 1)) (Symbol 1 "x"))
   = Raise AttributeError) /\
  (r ← simplify 4 (QuotientType (Number (VFloat 1)) (Symbol 1 "x"));
   simplify 4 r) = Raise AttributeError.
Proof.
  apply (simplify_composite_twice_raises
           (QuotientType (Number (VFloat 1)) (Symbol 1 "x")) 4).
  - reflexivity.
  - simpl. lia.
  - discriminate.
  - discriminate.
Defined.

(** ** [evaluate]: failures and bindings *)

Lemma py_binop_evaluate_outcome (op : binop) (a b : val) :
  evaluate_outcome (py_binop op a b) = true.
Proof.
  destruct a; try reflexivity; cbn [py_binop];
    (destruct (is_number b) eqn:Hb; [|reflexivity]);
    destruct b; try discriminate; destruct op; cbn;
    unfold number_add, number_truediv, float_op; cbn [to_float];
    repeat match goal with
           | |- context [float_of_int ?n] => destruct (float_of_int n)
           | |- context [PrimFloat.eqb ?x ?y] => destruct (PrimFloat.eqb x y)
           end; reflexivity.
Qed.

Lemma bind_evaluate_outcome (m : outcome val) (k : val -> outcome val) :
  evaluate_outcome m = true ->
  (forall a, evaluate_outcome (k a) = true) ->
  evaluate_outcome (m ≫= k) = true.
Proof.
  destruct m as [a|e|op x y|]; cbn [mbind outcome_bind]; intros Hm Hk;
    [apply Hk | exact Hm | reflexivity | discriminate].
Qed.

Lemma evaluate_values_outcome (f : val -> outcome val) (l : list val) :
  Forall (fun v => evaluate_outcome (f v) = true) l ->
  forall value, evaluate_outcome (evaluate_values f value l) = true.
Proof.
  induction 1 as [|item rest Hitem _ IH]; intros value; [reflexivity|].
  cbn [evaluate_values]. apply bind_evaluate_outcome; [exact Hitem|].
  intros r. apply bind_evaluate_outcome; [apply py_binop_evaluate_outcome|].
  intros value'. apply IH.
Qed.

(** X5.  On an expression, whatever the bindings, [evaluate] returns, raises
    [KeyError], [TypeError] or [ZeroDivisionError], or reaches arithmetic of
    two numbers: it never raises [AttributeError], [IndexError] or
    [InvalidSymbolName]. *)
Theorem evaluate_expr_outcome (e : val) (symbols : gmap string val) :
  is_expr e = true -> evaluate_outcome (evaluate e symbols) = true.
Proof.
  induction e as [| | |value _|oid name|values IH|values IH|a b IHa IHb|a b IHa IHb]
    using val_nested_ind; intros He; try discriminate.
  - reflexivity.
  - cbn [evaluate]. destruct (symbols !! name); reflexivity.
  - cbn [evaluate]. apply evaluate_values_outcome.
    cbn [is_expr] in He. rewrite forallb_forall in He.
    rewrite Forall_forall in IH. apply Forall_forall. intros v Hv.
    apply IH; [exact Hv|]. apply He. apply list_elem_of_In. exact Hv.
  - cbn [evaluate]. apply evaluate_values_outcome.
    cbn [is_expr] in He. rewrite forallb_forall in He.
    rewrite Forall_forall in IH. apply Forall_forall. intros v Hv.
    apply IH; [exact Hv|]. apply He. apply list_elem_of_In. exact Hv.
  - cbn [is_expr] in He. apply andb_true_iff in He as [Ha Hb].
    cbn [evaluate]. apply bind_evaluate_outcome; [exact (IHa Ha)|].
    intros x. apply bind_evaluate_outcome; [exact (IHb Hb)|].
    intros y. apply py_binop_evaluate_outcome.
  - cbn [is_expr] in He. apply andb_true_iff in He as [Ha Hb].
    cbn [evaluate]. apply bind_evaluate_outcome; [exact (IHa Ha)|].
    intros x. apply bind_evaluate_outcome; [exact (IHb Hb)|].
    intros y. apply py_binop_evaluate_outcome.
Qed.

(** The theorem at [x / (y ** 2.0)]. *)
Lemma evaluate_expr_outcome_witness :
  evaluate_outcome
    (evaluate (QuotientType (Symbol 1 "x")
                 (PowType (Symbol 2 "y") (Number (VFloat 2))))
       (<["x" := VFloat 1]> ∅)) = true.
Proof.
  apply (evaluate_expr_outcome
           (QuotientType (Symbol 1 "x")
              (PowType (Symbol 2 "y") (Number (VFloat 2))))
           (<["x" := VFloat 1]> ∅)).
  reflexivity.
Defined.

(** *** Bindings *)

Lemma evaluate_values_ext (f g : val -> outcome val) (l : list val) :
  Forall (fun v => f v = g v) l ->
  forall value, evaluate_values f value l = evaluate_values g value l.
Proof.
  induction 1 as [|item rest Hitem _ IH]; intros value; [reflexivity|].
  cbn [evaluate_values]. rewrite Hitem.
  destruct (g item) as [r| | |]; cbn [mbind outcome_bind]; try reflexivity.
  destruct (py_add item r) as [value'| | |]; cbn [mbind outcome_bind];
    try reflexivity.
  apply IH.
Qed.

(** X6.  [evaluate] reads the bindings of the names of the expression and no
    other: two dicts that agree on these names give the same outcome. *)
Theorem evaluate_agree (e : val) (symbols1 symbols2 : gmap string val) :
  (forall name, In name (names e) -> symbols1 !! name = symbols2 !! name) ->
  evaluate e symbols1 = evaluate e symbols2.
Proof.
  induction e as [| | |value _|oid name|values IH|values IH|a b IHa IHb|a b IHa IHb]
    using val_nested_ind; intros Hagree; try reflexivity.
  - cbn [evaluate]. rewrite (Hagree name) by (left; reflexivity). reflexivity.
  - cbn [evaluate]. apply evaluate_values_ext.
    rewrite Forall_forall in IH. apply Forall_forall. intros v Hv.
    apply IH; [exact Hv|]. intros name Hname. apply Hagree.
    cbn [names]. apply in_flat_map. exists v. split; [|exact Hname].
    apply list_elem_of_In. exact Hv.
  - cbn [evaluate]. apply evaluate_values_ext.
    rewrite Forall_forall in IH. apply Forall_forall. intros v Hv.
    apply IH; [exact Hv|]. intros name Hname. apply Hagree.
    cbn [names]. apply in_flat_map. exists v. split; [|exact Hname].
    apply list_elem_of_In. exact Hv.
  - cbn [evaluate]. rewrite IHa, IHb; [reflexivity| |];
      intros name Hname; apply Hagree; cbn [names]; apply in_or_app; auto.
  - cbn [evaluate]. rewrite IHa, IHb; [reflexivity| |];
      intros name Hname; apply Hagree; cbn [names]; apply in_or_app; auto.
Qed.

(** The theorem at [x / y] and two dicts that differ on [z]. *)
Lemma evaluate_agree_witness :
  evaluate (QuotientType (Symbol 1 "x") (Symbol 2 "y"))
    (<["x" := VFloat 1]> (<["y" := VFloat 4]> ∅))
  = evaluate (QuotientType (Symbol 1 "x") (Symbol 2 "y"))
      (<["z" := VFloat 3]> (<["x" := VFloat 1]> (<["y" := VFloat 4]> ∅))).
Proof.
  apply (evaluate_agree (QuotientType (Symbol 1 "x") (Symbol 2 "y"))
           (<["x" := VFloat 1]> (<["y" := VFloat 4]> ∅))
           (<["z" := VFloat 3]> (<["x" := VFloat 1]> (<["y" := VFloat 4]> ∅)))).
  intros name [<-|[<-|[]]]; reflexivity.
Defined.

Lemma py_binop_Raise (op : binop) (a b : val) (e : exn) :
  py_binop op a b = Raise e -> e = TypeError \/ e = ZeroDivisionError.
Proof.
  assert (Hend : forall o : outcome val,
             o = Raise TypeError \/ o = Raise ZeroDivisionError \/
             (forall e', o <> Raise e') ->
             o = Raise e -> e = TypeError \/ e = ZeroDivisionError).
  { intros o [->|[->|Ho]] H; [left|right|exfalso; exact (Ho e H)]; congruence. }
  apply Hend.
  destruct a; cbn [py_binop]; try (right; right; discriminate);
    try (left; reflexivity);
    (destruct (is_number b) eqn:Hb; [|left; reflexivity]);
    destruct b; try discriminate; destruct op; cbn;
    unfold number_add, number_truediv, float_op; cbn [to_float];
    repeat match goal with
           | |- context [float_of_int ?n] => destruct (float_of_int n)
           | |- context [PrimFloat.eqb ?x ?y] => destruct (PrimFloat.eqb x y)
           end;
    first [right; left; reflexivity | right; right; discriminate].
Qed.

Lemma bind_no_KeyError {A : Type} (m : outcome A) (k : A -> outcome val) :
  m <> Raise KeyError ->
  (forall a, k a <> Raise KeyError) ->
  (m ≫= k) <> Raise KeyError.
Proof.
  destruct m as [a|e|op x y|]; cbn [mbind outcome_bind]; intros Hm Hk;
    [apply Hk | | discriminate | discriminate].
  intros [= ->]. apply Hm. reflexivity.
Qed.

Lemma py_add_no_KeyError (a b : val) : py_add a b <> Raise KeyError.
Proof.
  intros H. apply py_binop_Raise in H as [H|H]; discriminate.
Qed.

Lemma evaluate_values_no_KeyError (f : val -> outcome val) (l : list val) :
  Forall (fun v => f v <> Raise KeyError) l ->
  forall value, evaluate_values f value l <> Raise KeyError.
Proof.
  induction 1 as [|item rest Hitem _ IH]; intros value; [discriminate|].
  cbn [evaluate_values]. apply bind_no_KeyError; [exact Hitem|].
  intros r. apply bind_no_KeyError; [apply py_add_no_KeyError|].
  intros value'. apply IH.
Qed.

(** X7.  When the dict binds every name of the expression, [evaluate] does
    not raise [KeyError]. *)
Theorem evaluate_bound_no_KeyError (e : val) (symbols : gmap string val) :
  (forall name, In name (names e) -> is_Some (symbols !! name)) ->
  evaluate e symbols <> Raise KeyError.
Proof.
  induction e as [| | |value _|oid name|values IH|values IH|a b IHa IHb|a b IHa IHb]
    using val_nested_ind; intros Hbound; try discriminate.
  - cbn [evaluate].
    destruct (Hbound name) as [x Hx]; [left; reflexivity|].
    rewrite Hx. discriminate.
  - cbn [evaluate]. apply evaluate_values_no_KeyError.
    rewrite Forall_forall in IH. apply Forall_forall. intros v Hv.
    apply IH; [exact Hv|]. intros name Hname. apply Hbound.
    cbn [names]. apply in_flat_map. exists v. split; [|exact Hname].
    apply list_elem_of_In. exact Hv.
  - cbn [evaluate]. apply evaluate_values_no_KeyError.
    rewrite Forall_forall in IH. apply Forall_forall. intros v Hv.
    apply IH; [exact Hv|]. intros name Hname. apply Hbound.
    cbn [names]. apply in_flat_map. exists v. split; [|exact Hname].
    apply list_elem_of_In. exact Hv.
  - cbn [evaluate]. apply bind_no_KeyError.
    + apply IHa. intros name Hname. apply Hbound. cbn [names].
      apply in_or_app. auto.
    + intros x. apply bind_no_KeyError.
      * apply IHb. intros name Hname. apply Hbound. cbn [names].
        apply in_or_app. auto.
      * intros y H. apply py_binop_Raise in H as [H|H]; discriminate.
  - cbn [evaluate]. apply bind_no_KeyError.
    + apply IHa. intros name Hname. apply Hbound. cbn [names].
      apply in_or_app. auto.
    + intros x. apply bind_no_KeyError.
      * apply IHb. intros name Hname. apply Hbound. cbn [names].
        apply in_or_app. auto.
      * intros y H. apply py_binop_Raise in H as [H|H]; discriminate.
Qed.

(** The theorem at [x + y] with both names bound. *)
Lemma evaluate_bound_no_KeyError_witness :
  evaluate (SumType [Symbol 1 "x"; Symbol 2 "y"])
    (<["x" := VFloat 1]> (<["y" := VFloat 4]> ∅))
  <> Raise KeyError.
Proof.
  apply (evaluate_bound_no_KeyError (SumType [Symbol 1 "x"; Symbol 2 "y"])
           (<["x" := VFloat 1]> (<["y" := VFloat 4]> ∅))).
  intros name [<-|[<-|[]]]; eexists; reflexivity.
Defined.

(** *** What a sum and a product evaluate to *)

Lemma evaluate_values_last (f : val -> outcome val) (l : list val) (last : val) :
  forall value v,
    evaluate_values f value (l ++ [last]) = Ret v ->
    exists r, f last = Ret r /\ py_add last r = Ret v.
Proof.
  induction l as [|item rest IH]; intros value v; cbn [app evaluate_values].
  - intros H. apply bind_Ret in H as [r [Hr H]].
    apply bind_Ret in H as [value' [Hadd H]]. injection H as ->.
    exists r. split; assumption.
  - intros H. apply bind_Ret in H as [r [_ H]].
    apply bind_Ret in H as [value' [_ H]]. exact (IH _ _ H).
Qed.

Lemma py_add_evaluated (last r v : val) (symbols : gmap string val) :
  evaluate last symbols = Ret r -> py_add last r = Ret v ->
  v = VNone \/ v = SumType [last; r].
Proof.
  intros He Ha. destruct last; try discriminate;
    cbn in Ha; injection Ha as <-; auto.
Qed.

(** X8.  When [evaluate] of a [SumType] or of a [ProductType] with at least
    one operand returns, the value is [None] or the node
    [SumType([last, r])] of the last operand and the value [r] it evaluates
    to: it is never a number. *)
Theorem evaluate_nonempty_returns
  (values : list val) (last v : val) (symbols : gmap string val) :
  evaluate (SumType (values ++ [last])) symbols = Ret v \/
  evaluate (ProductType (values ++ [last])) symbols = Ret v ->
  v = VNone \/
  exists r, evaluate last symbols = Ret r /\ v = SumType [last; r].
Proof.
  intros H.
  assert (Hloop : evaluate_values (fun value => evaluate value symbols) (VInt 0)
                    (values ++ [last]) = Ret v).
  { destruct H as [H|H]; exact H. }
  apply evaluate_values_last in Hloop as [r [Hr Hadd]].
  destruct (py_add_evaluated last r v symbols Hr Hadd) as [->| ->].
  - left. reflexivity.
  - right. exists r. split; [exact Hr | reflexivity].
Qed.

(** The theorem at [2.0 + x] with [x] bound to [3.0]. *)
Lemma evaluate_nonempty_returns_witness :
  SumType [Symbol 1 "x"; VFloat 3] = VNone \/
  exists r,
    evaluate (Symbol 1 "x") (<["x" := VFloat 3]> ∅) = Ret r /\
    SumType [Symbol 1 "x"; VFloat 3] = SumType [Symbol 1 "x"; r].
Proof.
  apply (evaluate_nonempty_returns [Number (VFloat 2)] (Symbol 1 "x")
           (SumType [Symbol 1 "x"; VFloat 3]) (<["x" := VFloat 3]> ∅)).
  left. reflexivity.
Defined.

(** ** [simplify]: when it raises *)

Lemma like_terms_step_Number (like_terms : gmap dict_key val) (y : float) :
  like_terms_ok like_terms ->
  exists like_terms',
    like_terms_step like_terms (Number (VFloat y)) = Ret like_terms' /\
    like_terms_ok like_terms' /\
    forall oid, like_terms' !! KObject oid = like_terms !! KObject oid.
Proof.
  intros Hok.
  destruct (like_terms_step_ok like_terms (Number (VFloat y)) Hok eq_refl)
    as [H|[like_terms' [H Hok']]].
  - exfalso. destruct Hok as [[n [Hn Hnum]] _].
    unfold like_terms_step, dict_getitem in H. rewrite Hn in H.
    cbn [mbind outcome_bind get_value] in H.
    destruct Hnum as [->|[x ->]]; discriminate.
  - exists like_terms'. split; [exact H|]. split; [exact Hok'|].
    intros oid. destruct Hok as [[n [Hn Hnum]] _].
    unfold like_terms_step, dict_getitem in H. rewrite Hn in H.
    cbn [mbind outcome_bind get_value] in H.
    destruct (py_add n (VFloat y)) as [s| | |]; try discriminate.
    cbn [mbind outcome_bind] in H. injection H as <-.
    apply lookup_insert_ne. discriminate.
Qed.

Lemma like_terms_step_Symbol_seen
  (like_terms : gmap dict_key val) (oid : positive) (name : string) :
  like_terms_ok like_terms -> like_terms !! KObject oid <> None ->
  like_terms_step like_terms (Symbol oid name) = Raise AttributeError.
Proof.
  intros [_ Hsym] Hseen. unfold like_terms_step.
  destruct (like_terms !! KObject oid) as [entry|] eqn:Hentry; [|congruence].
  destruct (Hsym oid entry Hentry) as [v ->]. reflexivity.
Qed.

Lemma like_terms_step_Symbol_fresh
  (like_terms : gmap dict_key val) (oid : positive) (name : string) :
  like_terms_ok like_terms -> like_terms !! KObject oid = None ->
  like_terms_step like_terms (Symbol oid name)
  = Ret (<[KObject oid := ProductType [VInt 1; Symbol oid name]]> like_terms) /\
  like_terms_ok
    (<[KObject oid := ProductType [VInt 1; Symbol oid name]]> like_terms).
Proof.
  intros Hok Hfresh.
  assert (Hstep : like_terms_step like_terms (Symbol oid name)
                  = Ret (<[KObject oid := ProductType [VInt 1; Symbol oid name]]>
                           like_terms)).
  { unfold like_terms_step. rewrite Hfresh. reflexivity. }
  split; [exact Hstep|].
  destruct (like_terms_step_ok like_terms (Symbol oid name) Hok eq_refl)
    as [H|[like_terms' [H Hok']]]; rewrite Hstep in H; [discriminate|].
  injection H as <-. exact Hok'.
Qed.

Lemma like_terms_loop_spec (combined_values : list val) :
  Forall (fun r => simple_result r = true) combined_values ->
  forall like_terms, like_terms_ok like_terms ->
  (all_fresh like_terms (symbol_oids combined_values) ->
   exists like_terms', like_terms_loop like_terms combined_values = Ret like_terms') /\
  (~ all_fresh like_terms (symbol_oids combined_values) ->
   like_terms_loop like_terms combined_values = Raise AttributeError).
Proof.
  induction 1 as [|value rest Hv _ IH]; intros like_terms Hok.
  - split; [eauto|]. intros H. exfalso. apply H. split; constructor.
  - destruct value as [| | |payload|oid name| | | |]; try discriminate.
    + exact (IH like_terms Hok).
    + destruct payload as [| |y| | | | | |]; try discriminate.
      destruct (like_terms_step_Number like_terms y Hok)
        as [like_terms' [Hstep [Hok' Hsame]]].
      cbn [like_terms_loop]. rewrite Hstep. cbn [mbind outcome_bind].
      assert (Hiff : all_fresh like_terms' (symbol_oids rest) <->
                     all_fresh like_terms
                       (symbol_oids (Number (VFloat y) :: rest))).
      { unfold all_fresh. change (symbol_oids (Number (VFloat y) :: rest))
          with (symbol_oids rest).
        split; intros [Hnd Hall]; (split; [exact Hnd|]);
          eapply Forall_impl; try exact Hall; intros oid Hoid; cbn in *;
          [rewrite <- Hsame | rewrite Hsame]; exact Hoid. }
      destruct (IH like_terms' Hok') as [IHa IHb].
      split; intros H; [apply IHa | apply IHb]; rewrite Hiff; exact H.
    + change (symbol_oids (Symbol oid name :: rest))
        with (oid :: symbol_oids rest).
      cbn [like_terms_loop].
      destruct (like_terms !! KObject oid) as [entry|] eqn:Hentry.
      * rewrite like_terms_step_Symbol_seen by (exact Hok || congruence).
        split; [|reflexivity].
        intros [_ Hall]. apply Forall_cons in Hall as [Hoid _]. congruence.
      * destruct (like_terms_step_Symbol_fresh like_terms oid name Hok Hentry)
          as [Hstep Hok'].
        rewrite Hstep. cbn [mbind outcome_bind].
        set (like_terms' :=
               <[KObject oid := ProductType [VInt 1; Symbol oid name]]> like_terms)
          in *.
        assert (Hiff : all_fresh like_terms' (symbol_oids rest) <->
                       all_fresh like_terms (oid :: symbol_oids rest)).
        { unfold all_fresh. rewrite NoDup_cons, Forall_cons. split.
          - intros [Hnd Hall]. split; [split; [|exact Hnd]|split; [exact Hentry|]].
            + intros Hin. rewrite Forall_forall in Hall.
              specialize (Hall oid Hin). unfold like_terms' in Hall.
              rewrite lookup_insert_eq in Hall. discriminate.
            + rewrite Forall_forall in Hall. apply Forall_forall.
              intros o Ho. specialize (Hall o Ho). unfold like_terms' in Hall.
              destruct (decide (oid = o)) as [->|Hne].
              * rewrite lookup_insert_eq in Hall. discriminate.
              * rewrite lookup_insert_ne in Hall by congruence. exact Hall.
          - intros [[Hnotin Hnd] [_ Hall]]. split; [exact Hnd|].
            rewrite Forall_forall in Hall. apply Forall_forall.
            intros o Ho. unfold like_terms'.
            rewrite lookup_insert_ne by (intros [= ->]; exact (Hnotin Ho)).
            exact (Hall o Ho). }
        destruct (IH like_terms' Hok') as [IHa IHb].
        split; intros H; [apply IHa | apply IHb]; rewrite Hiff; exact H.
Qed.

Lemma simplify_values_result (f : val -> outcome val) (values : list val) :
  Forall (fun value => f value = simplify_result value) values ->
  simplify_values f values
  = if existsb has_repeated_symbol values then Raise AttributeError
    else Ret (map simplified values).
Proof.
  induction 1 as [|value values Hv _ IH]; [reflexivity|].
  cbn [simplify_values existsb map]. rewrite Hv. unfold simplify_result.
  destruct (has_repeated_symbol value); cbn [mbind outcome_bind orb];
    [reflexivity|].
  rewrite IH. destruct (existsb has_repeated_symbol values); reflexivity.
Qed.

Lemma simplified_simple_result (values : list val) :
  forallb is_expr values = true ->
  Forall (fun r => simple_result r = true) (map simplified values).
Proof.
  intros He. apply Forall_forall. intros r Hr.
  apply list_elem_of_In, in_map_iff in Hr as [v [<- Hv]].
  rewrite forallb_forall in He. specialize (He v Hv).
  destruct v as [| | |payload| | | | |]; try reflexivity.
  destruct payload; try discriminate. reflexivity.
Qed.

Lemma symbol_oids_simplified (values : list val) :
  symbol_oids (map simplified values) = symbol_oids values.
Proof.
  unfold symbol_oids. induction values as [|v values IH]; [reflexivity|].
  destruct v; cbn [map simplified is_leaf omap list_omap];
    first [exact IH | f_equal; exact IH].
Qed.

(** X9.  On an expression, and with fuel for the loop, [simplify] raises
    [AttributeError] exactly when one [Symbol] object occurs twice among the
    operands of a [SumType] that it reaches (through the operands of
    [SumType]s and [ProductType]s); otherwise it returns the expression itself
    when it is a [Number] or a [Symbol], and [None] when it is composite. *)
Theorem simplify_expr_result (e : val) (fuel : nat) :
  is_expr e = true -> (val_size e <= fuel)%nat ->
  simplify fuel e
  = if has_repeated_symbol e then Raise AttributeError
    else if is_leaf e then Ret e else Ret VNone.
Proof.
  assert (Hgoal : is_expr e = true -> (val_size e <= fuel)%nat ->
                  simplify fuel e = simplify_result e).
  { induction e as [| | |value _|oid name|values IH|values IH|a b _ _|a b _ _]
      using val_nested_ind; intros He Hfuel; try discriminate; try reflexivity.
    - cbn [is_expr] in He. cbn [val_size] in Hfuel.
      assert (Hall : Forall (fun value => simplify fuel value = simplify_result value)
                       values).
      { rewrite Forall_forall in IH. apply Forall_forall. intros v Hv.
        apply IH; [exact Hv| |].
        - rewrite forallb_forall in He. apply He, list_elem_of_In, Hv.
        - pose proof (val_size_elem_of v values Hv). lia. }
      cbn [simplify]. rewrite (simplify_values_result _ _ Hall).
      unfold simplify_result. cbn [has_repeated_symbol].
      destruct (existsb has_repeated_symbol values); cbn [mbind outcome_bind orb];
        [reflexivity|].
      pose proof (simplified_simple_result values He) as Hsimple.
      rewrite combine_loop_no_SumType.
      + cbn [mbind outcome_bind].
        destruct (like_terms_loop_spec _ Hsimple _ like_terms_init_ok)
          as [Hret Hraise].
        rewrite symbol_oids_simplified in Hret, Hraise.
        destruct (bool_decide (NoDup (symbol_oids values))) eqn:Hnd; cbn [negb].
        * apply bool_decide_eq_true in Hnd.
          destruct Hret as [like_terms' ->]; [|reflexivity].
          split; [exact Hnd|]. apply Forall_forall. intros oid _.
          apply lookup_singleton_ne. discriminate.
        * apply bool_decide_eq_false in Hnd.
          rewrite Hraise; [reflexivity|]. intros [Hnd' _]. exact (Hnd Hnd').
      + apply simple_result_no_SumType. exact Hsimple.
      + rewrite length_map.
        pose proof (length_le_list_sum_val_size values). lia.
    - cbn [is_expr] in He. cbn [val_size] in Hfuel.
      assert (Hall : Forall (fun value => simplify fuel value = simplify_result value)
                       values).
      { rewrite Forall_forall in IH. apply Forall_forall. intros v Hv.
        apply IH; [exact Hv| |].
        - rewrite forallb_forall in He. apply He, list_elem_of_In, Hv.
        - pose proof (val_size_elem_of v values Hv). lia. }
      cbn [simplify]. rewrite (simplify_values_result _ _ Hall).
      unfold simplify_result. cbn [has_repeated_symbol].
      destruct (existsb has_repeated_symbol values); reflexivity. }
  intros He Hfuel. rewrite (Hgoal He Hfuel). unfold simplify_result, simplified.
  destruct (has_repeated_symbol e), (is_leaf e); reflexivity.
Qed.

(** The theorem at [3.0 * (x + x)], where the two [x] are one object. *)
Lemma simplify_expr_result_witness :
  simplify 6 (ProductType [Number (VFloat 3); SumType [Symbol 1 "x"; Symbol 1 "x"]])
  = if has_repeated_symbol
         (ProductType [Number (VFloat 3); SumType [Symbol 1 "x"; Symbol 1 "x"]])
    then Raise AttributeError
    else if is_leaf
              (ProductType [Number (VFloat 3); SumType [Symbol 1 "x"; Symbol 1 "x"]])
         then Ret (ProductType [Number (VFloat 3);
                                SumType [Symbol 1 "x"; Symbol 1 "x"]])
         else Ret VNone.
Proof.
  apply (simplify_expr_result
           (ProductType [Number (VFloat 3); SumType [Symbol 1 "x"; Symbol 1 "x"]])
           6).
  - reflexivity.
  - simpl. lia.
Defined.

(** ** The [for] loop of the flattening on its own *)

Lemma sum_weight_not_SumType (value : val) :
  is_SumType value = false -> sum_weight value = 1%nat.
Proof. destruct value; (reflexivity || discriminate). Qed.

Lemma SumType_operands_cons (value : val) (l : list val) :
  SumType_operands (value :: l)
  = match value with
    | SumType values => values
    | _ => []
    end ++ SumType_operands l.
Proof. reflexivity. Qed.

Lemma SumType_operands_weight (l : list val) :
  (list_sum (map sum_weight (SumType_operands l)) + length l
   = list_sum (map sum_weight l))%nat.
Proof.
  assert (Hcons : forall x xs, list_sum (x :: xs) = (x + list_sum xs)%nat)
    by reflexivity.
  induction l as [|value l IH]; [reflexivity|].
  rewrite SumType_operands_cons, map_app, list_sum_app.
  cbn [map length]. rewrite Hcons.
  destruct (is_SumType value) eqn:Hsum.
  - destruct value as [| | | | |values| | |]; try discriminate.
    change (sum_weight (SumType values))
      with (S (list_sum (map sum_weight values))). lia.
  - rewrite (sum_weight_not_SumType value Hsum).
    destruct value; try discriminate; cbn [map list_sum]; cbn; lia.
Qed.

(** A list that is the list of the operands of its own [SumType]s is
    empty. *)
Lemma SumType_operands_fixed (x : list val) :
  x = SumType_operands x -> x = [].
Proof.
  intros Hx. pose proof (SumType_operands_weight x) as Hw.
  rewrite <- Hx in Hw. destruct x; [reflexivity|]. cbn [length] in Hw. lia.
Qed.

Lemma drop_lookup_app (i : nat) (l rest : list val) (value : val) :
  l !! i = Some value ->
  drop i (l ++ rest) = value :: drop (S i) (l ++ rest).
Proof.
  intros Hvalue. apply drop_S. apply lookup_app_l_Some. exact Hvalue.
Qed.

(** The pass from the position [i] of the iterator: it ends, what it appends
    is the list of the operands of the [SumType]s from that position on in
    the list it returns, and no other list is. *)
Lemma extend_pass_from (fuel : nat) :
  forall (i : nat) (l : list val),
    (i <= length l)%nat ->
    (list_sum (map sum_weight (drop i l)) < fuel)%nat ->
    exists added,
      extend_pass fuel i l = Ret (l ++ added) /\
      length (l ++ added) = (i + list_sum (map sum_weight (drop i l)))%nat /\
      added = SumType_operands (drop i (l ++ added)) /\
      (forall x, x = SumType_operands (drop i (l ++ x)) -> x = added).
Proof.
  induction fuel as [|fuel IH]; intros i l Hi Hfuel; [lia|].
  cbn [extend_pass]. destruct (l !! i) as [value|] eqn:Hvalue.
  - pose proof (lookup_lt_Some _ _ _ Hvalue) as Hlt.
    rewrite (drop_S _ _ _ Hvalue) in Hfuel |- *.
    assert (Hcons : forall x xs, list_sum (x :: xs) = (x + list_sum xs)%nat)
      by reflexivity.
    cbn [map] in Hfuel |- *. rewrite Hcons in Hfuel |- *.
    destruct (is_SumType value) eqn:Hsum.
    + destruct value as [| | | | |values| | |]; try discriminate.
      cbn [get_values mbind outcome_bind].
      change (sum_weight (SumType values))
        with (S (list_sum (map sum_weight values))) in Hfuel |- *.
      assert (Hdrop : drop (S i) (l ++ values) = drop (S i) l ++ values).
      { apply drop_app_le. lia. }
      destruct (IH (S i) (l ++ values)) as [added [Hpass [Hlen [Hadded Honly]]]].
      * rewrite length_app. lia.
      * rewrite Hdrop, map_app, list_sum_app. lia.
      * exists (values ++ added). rewrite app_assoc.
        split; [exact Hpass|]. split; [|split].
        -- rewrite Hlen, Hdrop, map_app, list_sum_app. lia.
        -- rewrite <- app_assoc, (drop_lookup_app i l _ _ Hvalue),
             SumType_operands_cons, app_assoc.
           f_equal. exact Hadded.
        -- intros x Hx.
           rewrite (drop_lookup_app i l _ _ Hvalue), SumType_operands_cons in Hx.
           set (x' := SumType_operands (drop (S i) (l ++ x))) in *.
           assert (Hx' : x' = SumType_operands (drop (S i) ((l ++ values) ++ x'))).
           { unfold x' at 1. rewrite Hx at 1. rewrite app_assoc. reflexivity. }
           rewrite Hx. f_equal. exact (Honly x' Hx').
    + rewrite (sum_weight_not_SumType value Hsum) in Hfuel |- *.
      assert (Hnone : match value with
                      | SumType values => values
                      | _ => []
                      end = []).
      { destruct value; try discriminate; reflexivity. }
      destruct (IH (S i) l) as [added [Hpass [Hlen [Hadded Honly]]]]; [lia|lia|].
      exists added. split; [exact Hpass|]. split; [|split].
      * rewrite Hlen. lia.
      * rewrite (drop_lookup_app i l _ _ Hvalue), SumType_operands_cons, Hnone.
        exact Hadded.
      * intros x Hx.
        rewrite (drop_lookup_app i l _ _ Hvalue), SumType_operands_cons, Hnone
          in Hx.
        exact (Honly x Hx).
  - apply lookup_ge_None in Hvalue.
    assert (Hend : forall x, drop i (l ++ x) = x).
    { intros x. rewrite drop_app_ge by lia.
      replace (i - length l)%nat with 0%nat by lia. reflexivity. }
    exists []. rewrite app_nil_r. split; [reflexivity|]. split; [|split].
    + rewrite drop_ge by lia. cbn. lia.
    + rewrite <- (app_nil_r l) at 1. rewrite Hend. reflexivity.
    + intros x Hx. rewrite Hend in Hx. exact (SumType_operands_fixed x Hx).
Qed.

(** X10.  The [for] loop of the flattening, which appends to the list it
    iterates over, ends on every list.  It returns the list followed by the
    operands of every [SumType] of the list it returns, in the order of that
    list: the operands of the [SumType]s it was given, then those of the
    [SumType]s among them, and so on.  No other list of appended values has
    this property, and the length of the result is the number of values
    nested in the [SumType]s of the list. *)
Theorem extend_pass_terminates (fuel : nat) (l : list val) :
  (list_sum (map sum_weight l) < fuel)%nat ->
  exists added,
    extend_pass fuel 0 l = Ret (l ++ added) /\
    length (l ++ added) = list_sum (map sum_weight l) /\
    added = SumType_operands (l ++ added) /\
    (forall x, x = SumType_operands (l ++ x) -> x = added).
Proof.
  intros Hfuel.
  destruct (extend_pass_from fuel 0 l) as [added [Hpass [Hlen [Hadded Honly]]]];
    [lia | exact Hfuel |].
  exists added. split; [exact Hpass|]. split; [exact Hlen|].
  split; [exact Hadded | exact Honly].
Qed.

(** The theorem at the list of [1.0 + (x + y)] and [2.0]. *)
Lemma extend_pass_terminates_witness :
  exists added,
    extend_pass 7 0
      [SumType [Number (VFloat 1); SumType [Symbol 1 "x"; Symbol 2 "y"]];
       Number (VFloat 2)]
    = Ret ([SumType [Number (VFloat 1); SumType [Symbol 1 "x"; Symbol 2 "y"]];
            Number (VFloat 2)] ++ added) /\
    length ([SumType [Number (VFloat 1); SumType [Symbol 1 "x"; Symbol 2 "y"]];
             Number (VFloat 2)] ++ added)
    = list_sum
        (map sum_weight
           [SumType [Number (VFloat 1); SumType [Symbol 1 "x"; Symbol 2 "y"]];
            Number (VFloat 2)]) /\
    added
    = SumType_operands
        ([SumType [Number (VFloat 1); SumType [Symbol 1 "x"; Symbol 2 "y"]];
          Number (VFloat 2)] ++ added) /\
    (forall x,
       x = SumType_operands
             ([SumType [Number (VFloat 1); SumType [Symbol 1 "x"; Symbol 2 "y"]];
               Number (VFloat 2)] ++ x) ->
       x = added).
Proof.
  apply (extend_pass_terminates 7
           [SumType [Number (VFloat 1); SumType [Symbol 1 "x"; Symbol 2 "y"]];
            Number (VFloat 2)]).
  simpl. lia.
Defined.

(** ** The operators that build nodes *)

Lemma float_opp_involutive (x : float) : PrimFloat.opp (PrimFloat.opp x) = x.
Proof.
  apply FloatAxioms.Prim2SF_inj. rewrite !FloatAxioms.opp_spec.
  destruct (Prim2SF x); cbn; rewrite ?negb_involutive; reflexivity.
Qed.

(** X11.  Negating a [Number] of an int or of a float twice gives the
    [Number] back: [-(-n)] is [n]. *)
Theorem py_neg_involutive (payload : val) :
  is_number payload = true ->
  (r ← py_neg (Number payload); py_neg r) = Ret (Number payload).
Proof.
  intros Hp. destruct payload as [|n|x| | | | | |]; try discriminate; cbn.
  - rewrite Z.opp_involutive. reflexivity.
  - rewrite float_opp_involutive. reflexivity.
Qed.

(** The theorem at [Number(2.5)]. *)
Lemma py_neg_involutive_witness :
  (r ← py_neg (Number (VFloat 2.5)); py_neg r) = Ret (Number (VFloat 2.5)).
Proof.
  apply (py_neg_involutive (VFloat 2.5)). reflexivity.
Defined.

(** X12.  [self - other], for [self] a [Number] or a [Symbol] and [other] an
    expression, builds an expression only when [other] is a [Number]: when
    [other] is a [Symbol] the subtraction raises [AttributeError], and when
    [other] is composite it returns a [SumType] that holds [None], on which
    [simplify] raises [AttributeError] and [evaluate] raises as well. *)
Theorem sub_outcome (self other : val) :
  is_leaf self = true -> is_expr other = true ->
  match other with
  | Number (VFloat x) =>
      leaf_method OSub self other
      = Ret (SumType [self; Number (VFloat (PrimFloat.opp x))])
  | Symbol _ _ => leaf_method OSub self other = Raise AttributeError
  | _ =>
      leaf_method OSub self other = Ret (SumType [self; VNone]) /\
      (forall fuel, simplify fuel (SumType [self; VNone]) = Raise AttributeError) /\
      (forall symbols, raises (evaluate (SumType [self; VNone]) symbols) = true)
  end.
Proof.
  intros Hself Hother.
  destruct other as [| | |payload| | | | |]; try discriminate.
  - destruct payload; try discriminate. reflexivity.
  - reflexivity.
  - split; [reflexivity|]. split.
    + intros fuel. destruct self; try discriminate; reflexivity.
    + intros symbols. destruct self as [| | | |oid name| | | |];
        try discriminate; cbn; [reflexivity|].
      destruct (symbols !! name); reflexivity.
  - split; [reflexivity|]. split.
    + intros fuel. destruct self; try discriminate; reflexivity.
    + intros symbols. destruct self as [| | | |oid name| | | |];
        try discriminate; cbn; [reflexivity|].
      destruct (symbols !! name); reflexivity.
  - split; [reflexivity|]. split.
    + intros fuel. destruct self; try discriminate; reflexivity.
    + intros symbols. destruct self as [| | | |oid name| | | |];
        try discriminate; cbn; [reflexivity|].
      destruct (symbols !! name); reflexivity.
  - split; [reflexivity|]. split.
    + intros fuel. destruct self; try discriminate; reflexivity.
    + intros symbols. destruct self as [| | | |oid name| | | |];
        try discriminate; cbn; [reflexivity|].
      destruct (symbols !! name); reflexivity.
Qed.

(** The theorem at [1.0 - x]. *)
Lemma sub_outcome_witness :
  leaf_method OSub (Number (VFloat 1)) (Symbol 1 "x") = Raise AttributeError.
Proof.
  apply (sub_outcome (Number (VFloat 1)) (Symbol 1 "x")); reflexivity.
Defined.

(** X13.  The operators do not chain.  On a [Number] or a [Symbol] on the
    left, [+], [/] and [**] run the method of that class, and each of the five
    methods that returns gives a composite node; any operator with that node
    on the left returns [None], and [evaluate] of that result raises
    [AttributeError]. *)
Theorem operators_do_not_chain (a b : val) :
  is_leaf a = true ->
  (py_binop Add a b = leaf_method OAdd a b /\
   py_binop Truediv a b = leaf_method OTruediv a b /\
   py_binop Pow a b = leaf_method OPow a b) /\
  (forall op x, leaf_method op a b = Ret x ->
     is_composite x = true /\
     forall op2 c symbols,
       py_binop op2 x c = Ret VNone /\
       (y ← py_binop op2 x c; evaluate y symbols) = Raise AttributeError).
Proof.
  intros Ha. split.
  - destruct a; try discriminate; repeat split; reflexivity.
  - intros op x Hx.
    assert (Hc : is_composite x = true).
    { destruct op; cbn [leaf_method] in Hx;
        try (injection Hx as <-; reflexivity).
      apply bind_Ret in Hx as [n [_ Hx]]. injection Hx as <-. reflexivity. }
    split; [exact Hc|]. intros op2 c symbols.
    destruct x; try discriminate; split; reflexivity.
Qed.

(** The theorem at [(x * 2.0) + y]. *)
Lemma operators_do_not_chain_witness :
  (py_binop Add (Symbol 1 "x") (Number (VFloat 2))
   = leaf_method OAdd (Symbol 1 "x") (Number (VFloat 2)) /\
   py_binop Truediv (Symbol 1 "x") (Number (VFloat 2))
   = leaf_method OTruediv (Symbol 1 "x") (Number (VFloat 2)) /\
   py_binop Pow (Symbol 1 "x") (Number (VFloat 2))
   = leaf_method OPow (Symbol 1 "x") (Number (VFloat 2))) /\
  (forall op x,
     leaf_method op (Symbol 1 "x") (Number (VFloat 2)) = Ret x ->
     is_composite x = true /\
     forall op2 c symbols,
       py_binop op2 x c = Ret VNone /\
       (y ← py_binop op2 x c; evaluate y symbols) = Raise AttributeError).
Proof.
  apply (operators_do_not_chain (Symbol 1 "x") (Number (VFloat 2))).
  reflexivity.
Defined.

(** ** [evaluate]: a number against an object *)

(** X14.  When the numerator of a [QuotientType] (the base of a [PowType])
    evaluates to a number and the denominator (the exponent) to a value that
    is no number, [evaluate] raises [TypeError]; every [Number] evaluates to
    such a value, so a bound [Symbol] over a [Number] raises [TypeError]. *)
Theorem evaluate_number_by_object
  (a b x y : val) (symbols : gmap string val) :
  evaluate a symbols = Ret x -> is_number x = true ->
  evaluate b symbols = Ret y -> is_number y = false ->
  evaluate (QuotientType a b) symbols = Raise TypeError /\
  evaluate (PowType a b) symbols = Raise TypeError.
Proof.
  intros Ha Hx Hb Hy. cbn [evaluate]. rewrite Ha, Hb.
  cbn [mbind outcome_bind]. unfold py_truediv, py_pow.
  destruct x; try discriminate; cbn [py_binop]; rewrite Hy; split; reflexivity.
Qed.

(** The theorem at [x / 2.0] with [x] bound to [3.0]. *)
Lemma evaluate_number_by_object_witness :
  evaluate (QuotientType (Symbol 1 "x") (Number (VFloat 2)))
    (<["x" := VFloat 3]> ∅) = Raise TypeError /\
  evaluate (PowType (Symbol 1 "x") (Number (VFloat 2)))
    (<["x" := VFloat 3]> ∅) = Raise TypeError.
Proof.
  apply (evaluate_number_by_object (Symbol 1 "x") (Number (VFloat 2))
           (VFloat 3) (Number (VFloat 2)) (<["x" := VFloat 3]> ∅));
    reflexivity.
Defined.
